(** * delayed_clear: a usage counter and a lazily set, clearable slot

    Shallow embedding of [src/delayed_clear/__init__.py].

    - Python objects are records, and every method is a function from the
      object before the call to the object after it.
    - An [asyncio.Event] is the boolean it holds ([set()] makes it [true],
      [clear()] makes it [false]); the coroutines that only wait on an event
      ([until_zero], [until_set], [until_unused]) change no state and are
      left out.
    - A block of Python code either returns or raises: [outcome].
    - A generator written under [@contextmanager] is split at its [yield]:
      the part run by [__enter__] and the part run by [__exit__], which
      resumes the generator normally when the [with] body returned and throws
      the body's exception into it at the [yield] when the body raised.
    - [datetime.now()] is the reading [now] handed to the call that makes it.
    - A [StopIteration] raised inside a generator does not leave its frame:
      Python replaces it by a [RuntimeError] (PEP 479).  The code of [get]
      before its [yield] runs in such a frame.  On the way out of a [with]
      block [contextlib] tells that replacement from a failure of the
      generator and lets the body's own exception go on, so the exit halves
      hand back the exception they were given. *)

From Stdlib Require Import ZArith List Bool String Lia.
Import ListNotations.
Open Scope Z_scope.

(** ** Outcomes of a block of code *)

Inductive outcome (E A : Type) : Type :=
| Return (a : A)
| Raise (e : E).

Arguments Return {E A} a.
Arguments Raise {E A} e.

(** ** Exceptions *)

(** What the code's behaviour depends on in Python's exceptions: which of
    them are [StopIteration] (the class or a subclass), and the
    [RuntimeError("generator raised StopIteration")], with the original as
    its cause, that Python raises in place of a [StopIteration] about to
    leave a generator's frame.  A [RuntimeError] is not a [StopIteration]. *)
Class Exceptions (Exn : Type) : Type := {
  is_StopIteration : Exn -> bool;
  generator_raised : Exn -> Exn;
  generator_raised_not_stop :
    forall e, is_StopIteration (generator_raised e) = false
}.

(** The exception that comes out of [next(gen)] when [e] is raised in the
    generator's frame and nothing there catches it (PEP 479). *)
Definition leaves_generator {Exn : Type} `{Exceptions Exn} (e : Exn) : Exn :=
  if is_StopIteration e then generator_raised e else e.

(** ** Awaiting an event *)

(** What [await event.wait()] does with the coroutine that runs it:
    [asyncio.Event.wait] returns at once when the event is set, and
    otherwise suspends the caller until some later [set()]. *)
Inductive awaited : Type := Ready | Suspended.

Definition wait (event : bool) : awaited :=
  if event then Ready else Suspended.

(** ** class Counter *)

Module Counter.

Record t : Type := mk { _counter : Z; _zero : bool }.

(** [__init__]: the counter is 0 and the [_zero] event is set. *)
Definition __init__ : t := mk 0 true.

(** [increment]: [self._zero.clear(); self._counter += 1]. *)
Definition increment (self : t) : t :=
  let self := mk (_counter self) false in
  mk (_counter self + 1) (_zero self).

(** [decrement]: two [if]s in sequence, the second reading the counter the
    first may have changed. *)
Definition decrement (self : t) : t :=
  let self :=
    if 0 <? _counter self then mk (_counter self - 1) (_zero self) else self in
  if _counter self =? 0 then mk (_counter self) true else self.

(** [clear]: [self._counter = 0; self._zero.set()]. *)
Definition clear (self : t) : t :=
  let self := mk 0 (_zero self) in
  mk (_counter self) true.

(** [is_zero]: [self._counter == 0]. *)
Definition is_zero (self : t) : bool := _counter self =? 0.

(** [bump], up to its [yield]: what [__enter__] runs. *)
Definition bump_enter (self : t) : t := increment self.

(** [bump], from its [yield] on: what [__exit__] runs.  The generator has
    no [try] around the [yield], so an exception thrown in at the [yield]
    leaves the generator at once and [self.decrement()] is not reached. *)
Definition bump_exit {E A} (self : t) (o : outcome E A) : outcome E A * t :=
  match o with
  | Return a => (Return a, decrement self)
  | Raise e => (Raise e, self)
  end.

(** [with self.bump(): body].  The body runs on the counter as [__enter__]
    left it and may itself use the counter. *)
Definition bump {E A} (self : t) (body : t -> outcome E A * t)
  : outcome E A * t :=
  let '(o, self) := body (bump_enter self) in
  bump_exit self o.

(** Calls a client can make on a counter, one after the other. *)
Inductive op : Type := Increment | Decrement | Clear.

Definition step (self : t) (o : op) : t :=
  match o with
  | Increment => increment self
  | Decrement => decrement self
  | Clear => clear self
  end.

Definition run (ops : list op) (self : t) : t := fold_left step ops self.

(** The counter as it is before the first call and after each call. *)
Fixpoint trace (ops : list op) (self : t) : list t :=
  match ops with
  | [] => [self]
  | o :: ops => self :: trace ops (step self o)
  end.

(** What holds of a counter between calls. *)
Definition Inv (self : t) : Prop :=
  0 <= _counter self /\ (_zero self = true <-> _counter self = 0).

(** [until_zero]: [await self._zero.wait()]. *)
Definition until_zero (self : t) : awaited := wait (_zero self).

(** How many [increment] and how many [decrement] calls a sequence makes. *)
Definition is_increment (o : op) : bool :=
  match o with Increment => true | _ => false end.

Definition is_decrement (o : op) : bool :=
  match o with Decrement => true | _ => false end.

Definition increments (ops : list op) : Z :=
  Z.of_nat (List.length (filter is_increment ops)).

Definition decrements (ops : list op) : Z :=
  Z.of_nat (List.length (filter is_decrement ops)).

(** A sequence of [increment] and [decrement] calls that never releases
    more than is held: started with [held] holders, every [decrement] finds
    a holder left. *)
Fixpoint matched (held : Z) (ops : list op) : bool :=
  match ops with
  | [] => true
  | Increment :: ops => matched (held + 1) ops
  | Decrement :: ops => (0 <? held) && matched (held - 1) ops
  | Clear :: _ => false
  end.

(** [n] blocks [with self.bump():] one inside the other, the innermost
    body being [pass]. *)
Fixpoint nested_bump {E : Type} (n : nat) (self : t) : outcome E unit * t :=
  match n with
  | O => (Return tt, self)
  | S n => bump self (nested_bump n)
  end.

End Counter.

(** ** class DelayedClear *)

(** A Python object handed to the slot: [None] or a value of the wrapped
    type. *)
Inductive py (T : Type) : Type :=
| PyNone
| Py (x : T).

Arguments PyNone {T}.
Arguments Py {T} x.

Module DelayedClear.

Section Slot.

(** [T]: the wrapped type; [Exn]: exceptions; [World]: whatever the
    factory reads and writes outside the slot. *)
Context {T Exn World : Type}.
Context `{PyExn : Exceptions Exn}.

(** [_value] is an attribute that exists only while a value is stored
    ([hasattr(self, "_value")]): [None] here is the missing attribute,
    [Some PyNone] the attribute holding Python's [None]. *)
Record t : Type := mk {
  _value_set : bool;
  _value : option (py T);
  _use_counter : Counter.t;
  _last_release : Z
}.

(** The factory [or_set]: a callable of no argument that returns a value
    or raises, acting on the world outside the slot. *)
Definition factory : Type := World -> outcome Exn (py T) * World.

(** [set]: [self._value = value; self._value_set.set()]. *)
Definition set (self : t) (value : py T) : t :=
  let self :=
    mk (_value_set self) (Some value) (_use_counter self) (_last_release self) in
  mk true (_value self) (_use_counter self) (_last_release self).

(** [__init__(value=None)] at clock reading [now]; an argument left out
    ([None] here) takes the default, Python's [None].  The source calls
    [self.set(value)] before it creates the counter and the timestamp;
    [set] touches neither. *)
Definition __init__ (value : option (py T)) (now : Z) : t :=
  let value := match value with Some v => v | None => PyNone end in
  let self := mk false None Counter.__init__ now in
  match value with
  | PyNone => self
  | Py _ => set self value
  end.

(** [unused]: [self._use_counter.is_zero()]. *)
Definition unused (self : t) : bool := Counter.is_zero (_use_counter self).

(** [since_release] at clock reading [now], in the clock's unit. *)
Definition since_release (self : t) (now : Z) : Z := now - _last_release self.

Definition with_use_counter (self : t) (c : Counter.t) : t :=
  mk (_value_set self) (_value self) c (_last_release self).

Definition with_last_release (self : t) (now : Z) : t :=
  mk (_value_set self) (_value self) (_use_counter self) now.

(** [get], up to its [yield]: what [__enter__] runs.  The result is the
    value yielded to the [with] body ([self._value], which on the second
    path is the value [set] has just stored), or the exception that left
    the generator before it yielded: [or_set()] is called in the
    generator's frame, so what it raises reaches the caller of [__enter__]
    as [leaves_generator] gives it. *)
Definition get_enter (self : t) (or_set : factory) (w : World)
  : outcome Exn (py T) * t * World :=
  match _value self with
  | Some v =>
      let self := with_use_counter self (Counter.bump_enter (_use_counter self)) in
      (Return v, self, w)
  | None =>
      match or_set w with
      | (Raise e, w) => (Raise (leaves_generator e), self, w)
      | (Return v, w) =>
          let self := set self v in
          let self := with_use_counter self (Counter.bump_enter (_use_counter self)) in
          (Return v, self, w)
      end
  end.

(** [get], from its [yield] on: what [__exit__] runs, [o] being how the
    [with] body ended and [now] the clock reading the [finally] block
    would get.  The inner [with self._use_counter.bump()] exits first,
    then the [finally] block runs on either path. *)
Definition get_exit {A} (self : t) (o : outcome Exn A) (now : Z)
  : outcome Exn A * t :=
  let '(o, c) := Counter.bump_exit (_use_counter self) o in
  let self := with_use_counter self c in
  let self :=
    if Counter.is_zero (_use_counter self) then with_last_release self now
    else self in
  (o, self).

(** [with self.get(or_set) as v: body v], the body ending at clock
    reading [now]. *)
Definition get {A} (self : t) (or_set : factory)
    (body : py T -> t -> World -> outcome Exn A * t * World)
    (w : World) (now : Z) : outcome Exn A * t * World :=
  match get_enter self or_set w with
  | (Raise e, self, w) => (Raise e, self, w)
  | (Return v, self, w) =>
      let '(o, self, w) := body v self w in
      let '(o, self) := get_exit self o now in
      (o, self, w)
  end.

(** [clear]. *)
Definition clear (self : t) : bool * t :=
  if unused self then
    let self :=
      match _value self with
      | Some _ =>
          let self := mk (_value_set self) None (_use_counter self) (_last_release self) in
          mk false (_value self) (_use_counter self) (_last_release self)
      | None => self
      end in
    (true, self)
  else (false, self).

(** Calls a client can make on a slot, one after the other: [set],
    [clear], entering a [get] block and leaving one. *)
Inductive op : Type :=
| Set_ (value : py T)
| Clear
| GetEnter (or_set : factory) (w : World)
| GetExit (o : outcome Exn unit) (now : Z).

Definition step (self : t) (o : op) : t :=
  match o with
  | Set_ value => set self value
  | Clear => snd (clear self)
  | GetEnter or_set w => snd (fst (get_enter self or_set w))
  | GetExit o now => snd (get_exit self o now)
  end.

Definition run (ops : list op) (self : t) : t := fold_left step ops self.

(** The slot as it is after construction and after each call. *)
Fixpoint trace (ops : list op) (self : t) : list t :=
  match ops with
  | [] => [self]
  | o :: ops => self :: trace ops (step self o)
  end.

(** The value-present event is set exactly when a value is stored. *)
Definition Inv (self : t) : Prop :=
  _value_set self = true <-> _value self <> None.

(** A slot some [get] block is using holds a value: the counter leaves 0
    only in [get], after the value is there, and [clear] removes the value
    only at 0. *)
Definition Held (self : t) : Prop :=
  Counter._counter (_use_counter self) <> 0 -> _value self <> None.

(** [until_set]: [await self._value_set.wait()]. *)
Definition until_set (self : t) : awaited := wait (_value_set self).

(** [until_unused]: [await self._use_counter.until_zero()]. *)
Definition until_unused (self : t) : awaited :=
  Counter.until_zero (_use_counter self).

Definition is_get_exit (o : op) : bool :=
  match o with GetExit _ _ => true | _ => false end.

End Slot.

Arguments t : clear implicits.
Arguments factory : clear implicits.
Arguments op : clear implicits.

End DelayedClear.

(** ** Sample clients *)

Module Sample.

(** Exceptions named by their class: a [StopIteration] is replaced by a
    [RuntimeError]. *)
#[global] Instance by_name : Exceptions string := {
  is_StopIteration e := String.eqb e "StopIteration";
  generator_raised _ := "RuntimeError"%string;
  generator_raised_not_stop _ := eq_refl
}.

(** A factory that counts its calls in the world and ends each call the
    same way, as [calls += 1; return "X"] or [calls += 1; raise ...] would. *)
Definition counting (r : outcome string (py string))
  : DelayedClear.factory string string nat :=
  fun calls => (r, S calls).

Definition returns_X : DelayedClear.factory string string nat :=
  counting (Return (Py "X"%string)).

Definition raises_ValueError : DelayedClear.factory string string nat :=
  counting (Raise "ValueError"%string).

(** As [lambda: next(iter([]))] does. *)
Definition raises_StopIteration : DelayedClear.factory string string nat :=
  counting (Raise "StopIteration"%string).

(** A fresh slot, constructed with no argument at clock reading 0. *)
Definition fresh : DelayedClear.t string := DelayedClear.__init__ None 0.

(** [with slot.get(returns_X): ...] entered on a fresh slot and not yet
    left. *)
Definition in_use : DelayedClear.t string :=
  DelayedClear.run [DelayedClear.GetEnter returns_X 0%nat] fresh.

(** The block above left at clock reading 7. *)
Definition released : list (DelayedClear.op string string nat) :=
  [DelayedClear.GetEnter returns_X 0%nat; DelayedClear.GetExit (Return tt) 7].

(** ... and the slot cleared afterwards. *)
Definition cleared : list (DelayedClear.op string string nat) :=
  released ++ [DelayedClear.Clear].

End Sample.

(** * Properties of Counter *)

Section CounterFacts.

Import Counter.

Lemma Inv_init : Inv __init__.
Proof. unfold Inv; simpl; split; [lia | tauto]. Qed.

Lemma Inv_increment c : Inv c -> Inv (increment c).
Proof.
  intros [Hge _]; unfold Inv; simpl; split; [lia |].
  split; [discriminate | lia].
Qed.

Lemma Inv_decrement c : Inv c -> Inv (decrement c).
Proof.
  intros [Hge Hz]; unfold Inv, decrement.
  destruct (0 <? _counter c) eqn:Hpos; simpl.
  - apply Z.ltb_lt in Hpos.
    destruct (_counter c - 1 =? 0) eqn:H0; simpl.
    + apply Z.eqb_eq in H0; split; [lia | tauto].
    + apply Z.eqb_neq in H0; split; [lia |].
      split; [intros Ht; apply Hz in Ht; lia | lia].
  - apply Z.ltb_ge in Hpos.
    assert (Hc : _counter c = 0) by lia.
    rewrite Hc; simpl; split; [lia | tauto].
Qed.

Lemma Inv_clear c : Inv (clear c).
Proof. unfold Inv; simpl; split; [lia | tauto]. Qed.

Lemma Inv_step c o : Inv c -> Inv (step c o).
Proof.
  destruct o; simpl;
    auto using Inv_increment, Inv_decrement, Inv_clear.
Qed.

Lemma Inv_trace ops : forall c, Inv c -> Forall Inv (trace ops c).
Proof.
  induction ops as [| o ops IH]; intros c Hc; simpl.
  - constructor; [exact Hc | constructor].
  - constructor; [exact Hc | apply IH, Inv_step, Hc].
Qed.

Lemma Inv_run ops : forall c, Inv c -> Inv (run ops c).
Proof.
  induction ops as [| o ops IH]; intros c Hc; simpl; [exact Hc |].
  apply IH, Inv_step, Hc.
Qed.

(** The last entry of the trace is the counter the whole run ends in. *)
Lemma trace_last ops : forall c d, last (trace ops c) d = run ops c.
Proof.
  induction ops as [| o ops IH]; intros c d; [reflexivity |].
  change (trace (o :: ops) c) with (c :: trace ops (step c o)).
  change (run (o :: ops) c) with (run ops (step c o)).
  rewrite <- (IH (step c o) d).
  destruct ops; reflexivity.
Qed.

Lemma decrement_at_zero c : _counter c = 0 -> _counter (decrement c) = 0.
Proof.
  intros Hc; unfold decrement; rewrite Hc; simpl.
  rewrite Hc; reflexivity.
Qed.

(** On a counter whose event agrees with its count, an over-release changes
    nothing at all. *)
Lemma decrement_noop c : Inv c -> _counter c = 0 -> decrement c = c.
Proof.
  intros [_ Hz] Hc; unfold decrement; rewrite Hc; simpl.
  rewrite Hc; simpl.
  destruct c as [n z]; simpl in *; subst n.
  f_equal; symmetry; apply Hz; reflexivity.
Qed.

End CounterFacts.

(** * Properties of DelayedClear *)

Section SlotFacts.

Import DelayedClear.

Context {T Exn World : Type}.
Context `{PyExn : Exceptions Exn}.

Lemma SlotInv_init value now : Inv (@__init__ T value now).
Proof.
  unfold Inv, __init__.
  destruct value as [[| x] |]; simpl; split;
    try discriminate; try congruence; reflexivity.
Qed.

Lemma SlotInv_set (s : t T) value : Inv (set s value).
Proof. unfold Inv; simpl; split; [discriminate | reflexivity]. Qed.

Lemma SlotInv_clear (s : t T) : Inv s -> Inv (snd (clear s)).
Proof.
  intros Hs; unfold clear.
  destruct (unused s); simpl; [| exact Hs].
  destruct (_value s) eqn:Hv; [| exact Hs].
  unfold Inv; simpl; split; [discriminate | congruence].
Qed.

Lemma SlotInv_get_enter (s : t T) (or_set : factory T Exn World) w :
  Inv s -> Inv (snd (fst (get_enter s or_set w))).
Proof.
  intros Hs; unfold get_enter.
  destruct (_value s) eqn:Hv; simpl.
  - unfold Inv in *; simpl; rewrite Hv in *; exact Hs.
  - destruct (or_set w) as [[v | e] w']; simpl; [| exact Hs].
    unfold Inv; simpl; split; [discriminate | reflexivity].
Qed.

Lemma SlotInv_get_exit {A} (s : t T) (o : outcome Exn A) now :
  Inv s -> Inv (snd (get_exit s o now)).
Proof.
  intros Hs; unfold get_exit, Counter.bump_exit.
  destruct o; simpl;
    match goal with |- context [if ?b then _ else _] => destruct b end;
    exact Hs.
Qed.

Lemma SlotInv_step (s : t T) (o : op T Exn World) : Inv s -> Inv (step s o).
Proof.
  destruct o; simpl;
    auto using SlotInv_set, SlotInv_clear, SlotInv_get_enter, SlotInv_get_exit.
Qed.

Lemma SlotInv_trace (ops : list (op T Exn World)) :
  forall s : t T, Inv s -> Forall Inv (trace ops s).
Proof.
  induction ops as [| o ops IH]; intros s Hs; simpl.
  - constructor; [exact Hs | constructor].
  - constructor; [exact Hs | apply IH, SlotInv_step, Hs].
Qed.

Lemma SlotInv_run (ops : list (op T Exn World)) :
  forall s : t T, Inv s -> Inv (run ops s).
Proof.
  induction ops as [| o ops IH]; intros s Hs; simpl; [exact Hs |].
  apply IH, SlotInv_step, Hs.
Qed.

(** A slot with nothing stored has its event unset. *)
Lemma Inv_absent (s : t T) : Inv s -> _value s = None -> _value_set s = false.
Proof.
  intros [Hs _] Hv.
  destruct (_value_set s); [| reflexivity].
  exfalso; apply Hs; [reflexivity | exact Hv].
Qed.

Lemma Inv_present (s : t T) v : Inv s -> _value s = Some v -> _value_set s = true.
Proof.
  intros [_ Hs] Hv; apply Hs; rewrite Hv; discriminate.
Qed.

Lemma Held_init value now : Held (@__init__ T value now).
Proof.
  unfold Held, __init__.
  destruct value as [[| x] |]; simpl; intros H; congruence.
Qed.

Lemma Held_step (s : t T) (o : op T Exn World) : Held s -> Held (step s o).
Proof.
  intros Hs; destruct o as [value | | or_set w | o now]; simpl.
  - unfold Held; simpl; discriminate.
  - unfold clear, unused, Counter.is_zero.
    destruct (Counter._counter (_use_counter s) =? 0) eqn:H0; simpl; [| exact Hs].
    apply Z.eqb_eq in H0.
    destruct (_value s); [| exact Hs].
    unfold Held; simpl; intros H; contradiction.
  - unfold get_enter.
    destruct (_value s) eqn:Hv; simpl.
    + unfold Held; simpl; rewrite Hv; discriminate.
    + destruct (or_set w) as [[v | e] w']; simpl; [| exact Hs].
      unfold Held; simpl; discriminate.
  - assert (Hdec : Counter._counter (Counter.decrement (_use_counter s)) <> 0 ->
                   Counter._counter (_use_counter s) <> 0).
    { intros Hn H0; apply Hn, decrement_at_zero, H0. }
    unfold get_exit, Counter.bump_exit.
    destruct o as [a | e]; simpl;
      match goal with |- context [if ?b then _ else _] => destruct b end;
      unfold Held in *; simpl; auto.
Qed.

Lemma Held_run (ops : list (op T Exn World)) :
  forall s : t T, Held s -> Held (run ops s).
Proof.
  induction ops as [| o ops IH]; intros s Hs; simpl; [exact Hs |].
  apply IH, Held_step, Hs.
Qed.

End SlotFacts.


(** * Claims about Counter *)

Section CounterClaims.

Import Counter.

(** C5: over every sequence of [increment], [decrement] and [clear] calls on
    a fresh counter the count is never negative, before the first call and
    after each one; [decrement] on a count of 0 leaves the count at 0, and on
    a counter such a sequence has produced it changes nothing at all.
    [decrement] is a total function into counters: it has no raising path. *)
Theorem count_never_negative (ops : list op) :
  Forall (fun c => 0 <= _counter c) (trace ops __init__)
  /\ (forall c, _counter c = 0 -> _counter (decrement c) = 0)
  /\ (_counter (run ops __init__) = 0 ->
      decrement (run ops __init__) = run ops __init__).
Proof.
  split; [| split].
  - eapply Forall_impl; [| apply (Inv_trace ops), Inv_init].
    intros c [Hge _]; exact Hge.
  - exact decrement_at_zero.
  - apply decrement_noop, Inv_run, Inv_init.
Qed.

(** C6: after construction and after every completed [increment],
    [decrement] or [clear], the [_zero] event is set exactly when the count
    is 0, and [is_zero()] answers both what the event holds and whether the
    count is 0. *)
Theorem zero_event_iff_count_zero (ops : list op) :
  Forall (fun c => (_zero c = true <-> _counter c = 0)
                   /\ is_zero c = _zero c
                   /\ (is_zero c = true <-> _counter c = 0))
         (trace ops __init__).
Proof.
  eapply Forall_impl; [| apply (Inv_trace ops), Inv_init].
  intros c [_ Hz]; split; [exact Hz |].
  unfold is_zero; split.
  - destruct (_counter c =? 0) eqn:H0.
    + apply Z.eqb_eq in H0; symmetry; apply Hz, H0.
    + apply Z.eqb_neq in H0.
      destruct (_zero c); [| reflexivity].
      exfalso; apply H0, Hz; reflexivity.
  - apply Z.eqb_eq.
Qed.

(** C1 (the code departs from the claim): a [with counter.bump():] block
    whose body raises leaves the count one above what it was on entry, for
    every counter and every exception, and the exception reaches the caller;
    the generator's [self.decrement()] is skipped.  On a fresh counter the
    count is left at 1 with the [_zero] event unset. *)
Theorem bump_raising_body_leaks {E A : Type} (c : t) (e : E) :
  bump c (fun c' => (@Raise E A e, c')) = (Raise e, increment c)
  /\ _counter (snd (bump c (fun c' => (@Raise E A e, c')))) = _counter c + 1
  /\ snd (bump __init__ (fun c' => (@Raise E A e, c'))) = mk 1 false.
Proof.
  split; [reflexivity | split; reflexivity].
Qed.

(** The other exit path of [bump]: a body that returns, and leaves the count
    as it found it, is followed by [decrement], and the count is back at its
    value on entry. *)
Lemma bump_returning_body_restores {E A : Type} (c c' : t) (a : A)
    (body : t -> outcome E A * t) :
  0 <= _counter c ->
  body (increment c) = (Return a, c') ->
  _counter c' = _counter (increment c) ->
  fst (bump c body) = Return a /\ _counter (snd (bump c body)) = _counter c.
Proof.
  intros Hge Hbody Hc'.
  unfold bump, bump_enter; rewrite Hbody; simpl.
  split; [reflexivity |].
  unfold decrement; rewrite Hc'; simpl.
  destruct (0 <? _counter c + 1) eqn:Hpos.
  - simpl.
    destruct (_counter c + 1 - 1 =? 0); simpl; lia.
  - apply Z.ltb_ge in Hpos; lia.
Qed.

End CounterClaims.

(** The calls [decrement; increment; increment; decrement; clear; decrement]
    on a fresh counter, with an over-release at the start and at the end. *)
Lemma count_never_negative_witness :
  Forall (fun c => 0 <= Counter._counter c)
         (Counter.trace
            [Counter.Decrement; Counter.Increment; Counter.Increment;
             Counter.Decrement; Counter.Clear; Counter.Decrement]
            Counter.__init__)
  /\ Counter._counter (Counter.decrement Counter.__init__) = 0
  /\ Counter.decrement (Counter.run [Counter.Increment; Counter.Clear] Counter.__init__)
     = Counter.run [Counter.Increment; Counter.Clear] Counter.__init__.
Proof.
  split; [| split].
  - exact (proj1 (count_never_negative
                    [Counter.Decrement; Counter.Increment; Counter.Increment;
                     Counter.Decrement; Counter.Clear; Counter.Decrement])).
  - apply (proj1 (proj2 (count_never_negative []))); reflexivity.
  - apply (proj2 (proj2 (count_never_negative [Counter.Increment; Counter.Clear])));
      reflexivity.
Defined.


(** * Claims about DelayedClear *)

Section SlotClaims.

Import DelayedClear.

Context {T Exn World : Type}.
Context `{PyExn : Exceptions Exn}.

(** C7: after construction and after every completed [set], [clear], entry
    into a [get] block and exit from one (by return or by exception), the
    [_value_set] event is set exactly when a value is stored. *)
Theorem value_event_iff_value_stored
    (value : option (py T)) (now : Z) (ops : list (op T Exn World)) :
  Forall (fun s => _value_set s = true <-> _value s <> None)
         (trace ops (__init__ value now)).
Proof.
  apply (SlotInv_trace ops), SlotInv_init.
Qed.

(** C9: [set(value)] stores the value over whatever was stored, sets the
    [_value_set] event, and leaves the usage counter (count and [_zero]
    event) as it was, for every slot and every argument. *)
Theorem set_stores_and_spares_counter (s : t T) (value : py T) :
  _value (set s value) = Some value
  /\ _value_set (set s value) = true
  /\ Counter._counter (_use_counter (set s value)) = Counter._counter (_use_counter s)
  /\ Counter._zero (_use_counter (set s value)) = Counter._zero (_use_counter s)
  /\ _use_counter (set s value) = _use_counter s.
Proof.
  repeat split.
Qed.

(** C10: constructed with [None] the slot holds nothing and its event is
    unset, just as when the argument is left out; a later [set(None)] makes
    it hold the value [None], with the event set. *)
Theorem init_none_is_absent (now : Z) :
  _value (@__init__ T (Some PyNone) now) = None
  /\ _value_set (@__init__ T (Some PyNone) now) = false
  /\ @__init__ T (Some PyNone) now = __init__ None now
  /\ _value (set (@__init__ T (Some PyNone) now) PyNone) = Some PyNone
  /\ _value_set (set (@__init__ T (Some PyNone) now) PyNone) = true.
Proof.
  repeat split.
Qed.

(** C3: on every slot whose usage counter is above 0, [unused()] is false
    and [clear()] returns [False] and gives back the very same slot: value,
    event, counter and timestamp are as before.  When the slot came out of
    calls on a constructed slot, a value is indeed stored and the event
    set, before and after the refused [clear()]. *)
Theorem clear_in_use_refuses (s : t T) :
  0 < Counter._counter (_use_counter s) ->
  unused s = false
  /\ clear s = (false, s)
  /\ (forall v, _value s = Some v -> _value (snd (clear s)) = Some v)
  /\ _value_set (snd (clear s)) = _value_set s
  /\ _use_counter (snd (clear s)) = _use_counter s
  /\ _last_release (snd (clear s)) = _last_release s
  /\ (forall value now (ops : list (op T Exn World)),
        s = run ops (__init__ value now) ->
        exists v, _value (snd (clear s)) = Some v
                  /\ _value_set (snd (clear s)) = true).
Proof.
  intros Hpos.
  assert (Hu : unused s = false).
  { unfold unused, Counter.is_zero; apply Z.eqb_neq; lia. }
  assert (Hc : clear s = (false, s)).
  { unfold clear; rewrite Hu; reflexivity. }
  rewrite Hc; simpl.
  repeat (split; [first [assumption | reflexivity | tauto] |]).
  intros value now ops ->.
  remember (run ops (__init__ value now)) as s eqn:Es.
  assert (HI : Inv s).
  { subst s; apply SlotInv_run, SlotInv_init. }
  assert (HH : Held s).
  { subst s; apply Held_run, Held_init. }
  destruct (_value s) as [v |] eqn:Hv.
  - exists v; split; [reflexivity |].
    apply (Inv_present s v HI Hv).
  - exfalso; apply HH; [lia | exact Hv].
Qed.

(** C4: on every slot that calls on a constructed slot have produced and
    whose usage counter is 0, [unused()] is true, [clear()] returns [True]
    and the slot it leaves holds no value and has its event unset, whether a
    value was stored or not; a second [clear()] returns [True] again and
    changes nothing. *)
Theorem clear_unused_succeeds
    (value : option (py T)) (now : Z) (ops : list (op T Exn World)) :
  Counter._counter (_use_counter (run ops (__init__ value now))) = 0 ->
  unused (run ops (__init__ value now)) = true
  /\ fst (clear (run ops (__init__ value now))) = true
  /\ _value (snd (clear (run ops (__init__ value now)))) = None
  /\ _value_set (snd (clear (run ops (__init__ value now)))) = false
  /\ clear (snd (clear (run ops (__init__ value now))))
     = (true, snd (clear (run ops (__init__ value now)))).
Proof.
  remember (run ops (__init__ value now)) as s eqn:Es.
  assert (HI : Inv s).
  { subst s; apply SlotInv_run, SlotInv_init. }
  clear Es; intros H0.
  assert (Hu : unused s = true).
  { unfold unused, Counter.is_zero; apply Z.eqb_eq, H0. }
  split; [exact Hu |].
  destruct (_value s) as [v |] eqn:Hv.
  - assert (Hc : clear s
                 = (true, mk false None (_use_counter s) (_last_release s))).
    { unfold clear; rewrite Hu, Hv; reflexivity. }
    rewrite Hc; simpl; repeat split.
    unfold clear, unused; simpl.
    fold (unused s); rewrite Hu; reflexivity.
  - assert (Hc : clear s = (true, s)).
    { unfold clear; rewrite Hu, Hv; reflexivity. }
    rewrite Hc; simpl; repeat split; try assumption.
    apply Inv_absent; assumption.
Qed.

(** C2, as the code has it: on a slot that calls on a constructed slot have
    produced and that holds no value, a factory that raises [e] makes [get]
    raise before it yields (the [with] body never runs), and the slot is
    left as it was: no value stored, the event unset, the usage counter
    untouched.  The exception the caller gets is [e] itself, unless [e] is a
    [StopIteration]: that one is raised inside the generator of [get] and
    reaches the caller as the [RuntimeError] Python puts in its place, which
    is another exception than [e]. *)
Theorem get_factory_failure
    (value : option (py T)) (now : Z) (ops : list (op T Exn World))
    (or_set : factory T Exn World) (w w' : World) (e : Exn) :
  _value (run ops (__init__ value now)) = None ->
  or_set w = (Raise e, w') ->
  get_enter (run ops (__init__ value now)) or_set w
  = (Raise (leaves_generator e), run ops (__init__ value now), w')
  /\ (forall (A : Type)
             (body : py T -> t T -> World -> outcome Exn A * t T * World)
             (t : Z),
        get (run ops (__init__ value now)) or_set body w t
        = (Raise (leaves_generator e), run ops (__init__ value now), w'))
  /\ (is_StopIteration e = false -> leaves_generator e = e)
  /\ (is_StopIteration e = true ->
      leaves_generator e = generator_raised e /\ leaves_generator e <> e)
  /\ _value (snd (fst (get_enter (run ops (__init__ value now)) or_set w))) = None
  /\ _value_set (snd (fst (get_enter (run ops (__init__ value now)) or_set w)))
     = false
  /\ _use_counter (snd (fst (get_enter (run ops (__init__ value now)) or_set w)))
     = _use_counter (run ops (__init__ value now)).
Proof.
  remember (run ops (__init__ value now)) as s eqn:Es.
  assert (HI : Inv s).
  { subst s; apply SlotInv_run, SlotInv_init. }
  clear Es; intros Hv Hraise.
  assert (He : get_enter s or_set w = (Raise (leaves_generator e), s, w')).
  { unfold get_enter; rewrite Hv, Hraise; reflexivity. }
  split; [exact He |].
  split; [intros A body t0; unfold get; rewrite He; reflexivity |].
  split; [intros Hs; unfold leaves_generator; rewrite Hs; reflexivity |].
  split.
  - intros Hs; unfold leaves_generator; rewrite Hs.
    split; [reflexivity |].
    intros Heq.
    assert (Hno := generator_raised_not_stop e).
    rewrite Heq, Hs in Hno; discriminate Hno.
  - rewrite He; simpl.
    split; [exact Hv |].
    split; [apply Inv_absent; assumption | reflexivity].
Qed.

(** C8: [get] on a slot that holds a value does not run the factory (the
    world the factory acts on is as before, whatever the factory is) and
    yields the stored value, the slot changing only by the counter's
    increment; [get] on a slot that holds none runs the factory once (the
    world is the one a single call leaves) and, when the factory returns
    [v], yields [v] from the slot in which [set] has stored it. *)
Theorem get_runs_factory_only_when_absent
    (s : t T) (or_set : factory T Exn World) (w : World) :
  (forall v, _value s = Some v ->
     get_enter s or_set w
     = (Return v, with_use_counter s (Counter.increment (_use_counter s)), w))
  /\ (_value s = None ->
      snd (get_enter s or_set w) = snd (or_set w)
      /\ forall v w', or_set w = (Return v, w') ->
           get_enter s or_set w
           = (Return v,
              with_use_counter (set s v) (Counter.increment (_use_counter s)),
              w')
           /\ _value (snd (fst (get_enter s or_set w))) = Some v).
Proof.
  split.
  - intros v Hv; unfold get_enter; rewrite Hv; reflexivity.
  - intros Hv; unfold get_enter; rewrite Hv.
    destruct (or_set w) as [[v0 | e] w0]; simpl.
    + split; [reflexivity |].
      intros v w' [= -> ->]; split; reflexivity.
    + split; [reflexivity |].
      intros v w' H; discriminate H.
Qed.

End SlotClaims.

(** A slot entered once and not left: the counter is at 1 and [clear()] is
    refused. *)
Lemma clear_in_use_refuses_witness :
  0 < Counter._counter (DelayedClear._use_counter Sample.in_use)
  /\ DelayedClear.clear Sample.in_use = (false, Sample.in_use)
  /\ DelayedClear._value (snd (DelayedClear.clear Sample.in_use))
     = Some (Py "X"%string).
Proof.
  split; [reflexivity |].
  split.
  - exact (proj1 (proj2 (clear_in_use_refuses (T:=string) (Exn:=string) (World:=nat) Sample.in_use eq_refl))).
  - apply (proj1 (proj2 (proj2 (clear_in_use_refuses (T:=string) (Exn:=string) (World:=nat) Sample.in_use eq_refl)))).
    reflexivity.
Defined.

(** A slot entered and left again: the counter is back at 0, the value ["X"]
    is still stored, and [clear()] removes it. *)
Lemma clear_unused_succeeds_witness :
  Counter._counter
    (DelayedClear._use_counter (DelayedClear.run Sample.released Sample.fresh)) = 0
  /\ DelayedClear._value (DelayedClear.run Sample.released Sample.fresh)
     = Some (Py "X"%string)
  /\ fst (DelayedClear.clear (DelayedClear.run Sample.released Sample.fresh)) = true
  /\ DelayedClear._value
       (snd (DelayedClear.clear (DelayedClear.run Sample.released Sample.fresh)))
     = None.
Proof.
  split; [reflexivity |].
  split; [reflexivity |].
  split.
  - exact (proj1 (proj2 (clear_unused_succeeds None 0 Sample.released eq_refl))).
  - exact (proj1 (proj2 (proj2
             (clear_unused_succeeds None 0 Sample.released eq_refl)))).
Defined.

(** A slot used, released and cleared, then entered with a factory that
    raises: with [ValueError] that exception comes out, with [StopIteration]
    a [RuntimeError] does; either way the factory has been called (the call
    count goes from 1 to 2) and the slot is as it was. *)
Lemma get_factory_failure_witness :
  DelayedClear._value (DelayedClear.run Sample.cleared Sample.fresh) = None
  /\ Sample.raises_ValueError 1%nat = (Raise "ValueError"%string, 2%nat)
  /\ Sample.raises_StopIteration 1%nat = (Raise "StopIteration"%string, 2%nat)
  /\ DelayedClear.get_enter (DelayedClear.run Sample.cleared Sample.fresh)
       Sample.raises_ValueError 1%nat
     = (Raise "ValueError"%string,
        DelayedClear.run Sample.cleared Sample.fresh, 2%nat)
  /\ DelayedClear.get_enter (DelayedClear.run Sample.cleared Sample.fresh)
       Sample.raises_StopIteration 1%nat
     = (Raise "RuntimeError"%string,
        DelayedClear.run Sample.cleared Sample.fresh, 2%nat)
  /\ leaves_generator "StopIteration"%string <> "StopIteration"%string
  /\ DelayedClear._value_set
       (snd (fst (DelayedClear.get_enter
                    (DelayedClear.run Sample.cleared Sample.fresh)
                    Sample.raises_StopIteration 1%nat)))
     = false.
Proof.
  split; [reflexivity |].
  split; [reflexivity |].
  split; [reflexivity |].
  split.
  - exact (proj1 (get_factory_failure None 0 Sample.cleared
                    Sample.raises_ValueError 1%nat 2%nat "ValueError"%string
                    eq_refl eq_refl)).
  - split.
    + exact (proj1 (get_factory_failure None 0 Sample.cleared
                      Sample.raises_StopIteration 1%nat 2%nat
                      "StopIteration"%string eq_refl eq_refl)).
    + split.
      * exact (proj2 (proj1 (proj2 (proj2 (proj2
                 (get_factory_failure None 0 Sample.cleared
                    Sample.raises_StopIteration 1%nat 2%nat
                    "StopIteration"%string eq_refl eq_refl))))
                 eq_refl)).
      * exact (proj1 (proj2 (proj2 (proj2 (proj2 (proj2
                 (get_factory_failure None 0 Sample.cleared
                    Sample.raises_StopIteration 1%nat 2%nat
                    "StopIteration"%string eq_refl eq_refl))))))).
Defined.

(** The claim as the spec words it (the factory's exception is the one the
    caller gets) fails on a fresh slot for a factory that raises
    [StopIteration]: the caller of [get] gets a [RuntimeError]. *)
Lemma factory_StopIteration_reaches_caller_as_RuntimeError :
  DelayedClear._value Sample.fresh = None
  /\ Sample.raises_StopIteration 0%nat = (Raise "StopIteration"%string, 1%nat)
  /\ DelayedClear.get_enter Sample.fresh Sample.raises_StopIteration 0%nat
     = (Raise "RuntimeError"%string, Sample.fresh, 1%nat)
  /\ fst (fst (DelayedClear.get_enter Sample.fresh Sample.raises_StopIteration 0%nat))
     <> Raise "StopIteration"%string
  /\ ~ (forall (or_set : DelayedClear.factory string string nat)
               (w w' : nat) (e : string),
          DelayedClear._value Sample.fresh = None ->
          or_set w = (Raise e, w') ->
          fst (fst (DelayedClear.get_enter Sample.fresh or_set w)) = Raise e).
Proof.
  split; [reflexivity |].
  split; [reflexivity |].
  split; [reflexivity |].
  split; [discriminate |].
  intros Hall.
  specialize (Hall Sample.raises_StopIteration 0%nat 1%nat
                "StopIteration"%string eq_refl eq_refl).
  discriminate Hall.
Defined.

(** With a factory that counts its calls: [get] on a slot holding ["Y"]
    yields ["Y"] and the call count stays 0; [get] on a fresh slot yields the
    factory's ["X"] and the call count is 1. *)
Lemma get_runs_factory_only_when_absent_witness :
  DelayedClear.get_enter (DelayedClear.set Sample.fresh (Py "Y"%string))
    Sample.returns_X 0%nat
  = (Return (Py "Y"%string),
     DelayedClear.with_use_counter
       (DelayedClear.set Sample.fresh (Py "Y"%string))
       (Counter.increment Counter.__init__),
     0%nat)
  /\ DelayedClear.get_enter Sample.fresh Sample.returns_X 0%nat
     = (Return (Py "X"%string),
        DelayedClear.with_use_counter
          (DelayedClear.set Sample.fresh (Py "X"%string))
          (Counter.increment Counter.__init__),
        1%nat).
Proof.
  split.
  - exact (proj1 (get_runs_factory_only_when_absent
                    (DelayedClear.set Sample.fresh (Py "Y"%string))
                    Sample.returns_X 0%nat)
             (Py "Y"%string) eq_refl).
  - exact (proj1 (proj2 (proj2 (get_runs_factory_only_when_absent
                                  Sample.fresh Sample.returns_X 0%nat)
                           eq_refl)
                    (Py "X"%string) 1%nat eq_refl)).
Defined.

(** * Runs of the sample clients *)

(** A fresh slot, [with slot.get(returns_X) as v: return v] left at clock
    reading 7: the body got ["X"], the factory ran once, the slot is unused,
    the time since release read at 7 is 0, and [clear()] then succeeds and
    empties the slot. *)
Example get_then_clear :
  let '(o, s, calls) :=
    DelayedClear.get Sample.fresh Sample.returns_X
      (fun v s w => (@Return string _ v, s, w)) 0%nat 7 in
  o = Return (Py "X"%string)
  /\ calls = 1%nat
  /\ DelayedClear.unused s = true
  /\ DelayedClear.since_release s 7 = 0
  /\ s = DelayedClear.run Sample.released Sample.fresh
  /\ DelayedClear.clear s = (true, DelayedClear.__init__ None 7).
Proof.
  repeat split.
Qed.

(** The same block with a body that raises: the inner [bump] never
    decrements, so the slot stays in use after the block has been left, the
    timestamp is not refreshed, and [clear()] is refused from then on. *)
Example get_raising_body_stays_in_use :
  let '(o, s, calls) :=
    DelayedClear.get Sample.fresh Sample.returns_X
      (fun _ s w => (@Raise string unit "KeyError"%string, s, w)) 0%nat 7 in
  o = Raise "KeyError"%string
  /\ Counter._counter (DelayedClear._use_counter s) = 1
  /\ DelayedClear.unused s = false
  /\ DelayedClear._last_release s = 0
  /\ DelayedClear.clear s = (false, s).
Proof.
  repeat split.
Qed.

(** Two overlapping [get] blocks on one slot: the factory runs for the first
    only, the slot is in use until both are left, and the timestamp is
    written by the last exit alone. *)
Example overlapping_gets :
  let enter := DelayedClear.GetEnter Sample.returns_X 0%nat in
  let s2 := DelayedClear.run [enter; enter] Sample.fresh in
  let s1 := DelayedClear.step s2 (@DelayedClear.GetExit string string nat (Return tt) 3) in
  let s0 := DelayedClear.step s1 (@DelayedClear.GetExit string string nat (Return tt) 5) in
  snd (DelayedClear.get_enter Sample.in_use Sample.returns_X 1%nat) = 1%nat
  /\ Counter._counter (DelayedClear._use_counter s2) = 2
  /\ DelayedClear.unused s1 = false
  /\ DelayedClear._last_release s1 = 0
  /\ DelayedClear.unused s0 = true
  /\ DelayedClear._last_release s0 = 5.
Proof.
  repeat split.
Qed.


(** * Further properties of Counter *)

Section CounterMore.

Import Counter.

Lemma decrement_increment c : Inv c -> decrement (increment c) = c.
Proof.
  intros [Hge Hz]; destruct c as [n z]; simpl in *.
  unfold decrement, increment; simpl.
  destruct (0 <? n + 1) eqn:Hpos; [| apply Z.ltb_ge in Hpos; lia].
  simpl; replace (n + 1 - 1) with n by lia.
  destruct (n =? 0) eqn:H0.
  - apply Z.eqb_eq in H0; f_equal; symmetry; apply Hz, H0.
  - apply Z.eqb_neq in H0; f_equal.
    destruct z; [exfalso; apply H0, Hz; reflexivity | reflexivity].
Qed.

Lemma bump_neutral_body {E A : Type} (c : t) (body : t -> outcome E A * t) (a : A) :
  Inv c ->
  body (increment c) = (Return a, increment c) ->
  bump c body = (Return a, c).
Proof.
  intros Hc Hbody; unfold bump, bump_enter; rewrite Hbody; simpl.
  rewrite (decrement_increment c Hc); reflexivity.
Qed.

Lemma nested_bump_neutral {E : Type} (n : nat) :
  forall c, Inv c -> @nested_bump E n c = (Return tt, c).
Proof.
  induction n as [| n IH]; intros c Hc; [reflexivity |].
  simpl; apply bump_neutral_body; [exact Hc |].
  apply IH, Inv_increment, Hc.
Qed.

Lemma increments_cons o ops :
  increments (o :: ops) = (if is_increment o then 1 else 0) + increments ops.
Proof.
  unfold increments; cbn [filter].
  destruct (is_increment o); cbn [List.length]; [rewrite Nat2Z.inj_succ |]; lia.
Qed.

Lemma decrements_cons o ops :
  decrements (o :: ops) = (if is_decrement o then 1 else 0) + decrements ops.
Proof.
  unfold decrements; cbn [filter].
  destruct (is_decrement o); cbn [List.length]; [rewrite Nat2Z.inj_succ |]; lia.
Qed.

Lemma increment_count c : _counter (increment c) = _counter c + 1.
Proof. reflexivity. Qed.

Lemma decrement_count c :
  _counter (decrement c) = if 0 <? _counter c then _counter c - 1 else _counter c.
Proof.
  unfold decrement.
  destruct (0 <? _counter c); simpl;
    match goal with |- context [if ?b then _ else _] => destruct b end;
    reflexivity.
Qed.

Lemma count_bounds ops :
  forall c, 0 <= _counter c -> ~ In Clear ops ->
  _counter c + increments ops - decrements ops <= _counter (run ops c)
  /\ _counter (run ops c) <= _counter c + increments ops.
Proof.
  induction ops as [| o ops IH]; intros c Hge Hno.
  - unfold increments, decrements; simpl; lia.
  - assert (Hno' : ~ In Clear ops) by (intros H; apply Hno; right; exact H).
    rewrite increments_cons, decrements_cons.
    change (run (o :: ops) c) with (run ops (step c o)).
    destruct o; cbn [step is_increment is_decrement].
    + assert (Hi := increment_count c).
      destruct (IH (increment c)) as [Hlo Hhi]; [lia | exact Hno' |]; lia.
    + assert (Hd := decrement_count c).
      destruct (0 <? _counter c) eqn:Hpos in Hd.
      * apply Z.ltb_lt in Hpos.
        destruct (IH (decrement c)) as [Hlo Hhi]; [lia | exact Hno' |]; lia.
      * apply Z.ltb_ge in Hpos.
        destruct (IH (decrement c)) as [Hlo Hhi]; [lia | exact Hno' |]; lia.
    + exfalso; apply Hno; left; reflexivity.
Qed.

Lemma count_matched ops :
  forall c, matched (_counter c) ops = true ->
  _counter (run ops c) = _counter c + increments ops - decrements ops.
Proof.
  induction ops as [| o ops IH]; intros c Hm.
  - unfold increments, decrements; simpl; lia.
  - rewrite increments_cons, decrements_cons.
    change (run (o :: ops) c) with (run ops (step c o)).
    destruct o; cbn [step is_increment is_decrement matched] in *.
    + assert (Hi := increment_count c).
      rewrite (IH (increment c)); rewrite Hi; [lia | exact Hm].
    + apply andb_true_iff in Hm; destruct Hm as [Hpos Hm].
      assert (Hd := decrement_count c); rewrite Hpos in Hd.
      rewrite (IH (decrement c)); rewrite Hd; [lia | exact Hm].
    + discriminate Hm.
Qed.

(** X1. Round trip of [bump]: on every counter that calls on a fresh counter
    have produced, a block whose body returns and hands the counter back as
    it received it leaves the whole counter, count and event, as it was
    before the block; so do [n] such blocks nested in one another. *)
Theorem bump_returning_body_round_trip {E A : Type} (ops : list op) :
  (forall n, @nested_bump E n (run ops __init__) = (Return tt, run ops __init__))
  /\ (forall (body : t -> outcome E A * t) (a : A),
        body (increment (run ops __init__))
        = (Return a, increment (run ops __init__)) ->
        bump (run ops __init__) body = (Return a, run ops __init__)).
Proof.
  assert (Hc : Inv (run ops __init__)) by apply Inv_run, Inv_init.
  split.
  - intros n; apply nested_bump_neutral, Hc.
  - intros body a Hbody; apply bump_neutral_body; assumption.
Qed.

(** X2. The count against the calls made: over a sequence of [increment] and
    [decrement] calls on a counter whose count is not negative, the count
    ends between (start + increments - decrements) and (start + increments);
    when no [decrement] comes without a holder to release, it ends at
    start + increments - decrements exactly. *)
Theorem count_tracks_calls (ops : list op) (c : t) :
  0 <= _counter c ->
  ~ In Clear ops ->
  _counter c + increments ops - decrements ops <= _counter (run ops c)
  /\ _counter (run ops c) <= _counter c + increments ops
  /\ (matched (_counter c) ops = true ->
      _counter (run ops c) = _counter c + increments ops - decrements ops).
Proof.
  intros Hge Hno.
  destruct (count_bounds ops c Hge Hno) as [Hlo Hhi].
  split; [exact Hlo | split; [exact Hhi | apply count_matched]].
Qed.

(** X3. [clear] then late releases: [clear] takes any counter, whatever its
    count and event, to the state of a fresh one, and any number of
    [decrement] calls made afterwards leave it there. *)
Theorem clear_then_decrements_is_fresh (c : t) (n : nat) :
  run (Clear :: repeat Decrement n) c = __init__
  /\ is_zero (run (Clear :: repeat Decrement n) c) = true
  /\ until_zero (run (Clear :: repeat Decrement n) c) = Ready.
Proof.
  assert (H : run (Clear :: repeat Decrement n) c = __init__).
  { change (run (Clear :: repeat Decrement n) c)
      with (run (repeat Decrement n) __init__).
    induction n as [| n IH]; [reflexivity |].
    exact IH. }
  rewrite H; repeat split.
Qed.

End CounterMore.

(** Two nested blocks inside a block, on a counter already incremented
    once. *)
Lemma bump_returning_body_round_trip_witness :
  Counter.nested_bump 2 (Counter.increment (Counter.run [Counter.Increment] Counter.__init__))
  = (@Return string unit tt,
     Counter.increment (Counter.run [Counter.Increment] Counter.__init__))
  /\ Counter.bump (Counter.run [Counter.Increment] Counter.__init__)
       (Counter.nested_bump 2)
     = (@Return string unit tt, Counter.run [Counter.Increment] Counter.__init__).
Proof.
  split; [reflexivity |].
  exact (proj2 (@bump_returning_body_round_trip string unit [Counter.Increment])
           (Counter.nested_bump 2) tt eq_refl).
Defined.

(** Three holders taken and two released on a fresh counter, against the
    same calls with one release too many at the start. *)
Lemma count_tracks_calls_witness :
  0 <= Counter._counter Counter.__init__
  /\ Counter.matched 0
       [Counter.Increment; Counter.Increment; Counter.Decrement;
        Counter.Increment; Counter.Decrement] = true
  /\ Counter._counter
       (Counter.run
          [Counter.Increment; Counter.Increment; Counter.Decrement;
           Counter.Increment; Counter.Decrement] Counter.__init__) = 0 + 3 - 2
  /\ 0 + 3 - 3
     <= Counter._counter
          (Counter.run
             [Counter.Decrement; Counter.Increment; Counter.Increment;
              Counter.Decrement; Counter.Increment; Counter.Decrement]
             Counter.__init__).
Proof.
  split; [discriminate |].
  split; [reflexivity |].
  split.
  - refine (proj2 (proj2 (count_tracks_calls
                            [Counter.Increment; Counter.Increment; Counter.Decrement;
                             Counter.Increment; Counter.Decrement]
                            Counter.__init__ _ _)) eq_refl).
    + discriminate.
    + simpl; intros H; repeat (destruct H as [H | H]; [discriminate H |]); exact H.
  - refine (proj1 (count_tracks_calls
                     [Counter.Decrement; Counter.Increment; Counter.Increment;
                      Counter.Decrement; Counter.Increment; Counter.Decrement]
                     Counter.__init__ _ _)).
    + discriminate.
    + simpl; intros H; repeat (destruct H as [H | H]; [discriminate H |]); exact H.
Defined.


(** * Further properties of DelayedClear *)

Section SlotMore.

Import DelayedClear.

Context {T Exn World : Type}.
Context `{PyExn : Exceptions Exn}.

(** What holds of a slot between calls: event and value agree, a slot in
    use holds a value, and the usage counter is a well-kept counter. *)
Lemma Kept_init value now :
  Inv (@__init__ T value now) /\ Held (@__init__ T value now)
  /\ Counter.Inv (_use_counter (@__init__ T value now)).
Proof.
  split; [apply SlotInv_init | split; [apply Held_init |]].
  unfold __init__; destruct value as [[| x] |]; simpl; apply Inv_init.
Qed.

Lemma UseCounter_step (s : t T) (o : op T Exn World) :
  Counter.Inv (_use_counter s) -> Counter.Inv (_use_counter (step s o)).
Proof.
  intros Hs; destruct o as [value | | or_set w | o now]; simpl.
  - exact Hs.
  - unfold clear; destruct (unused s); simpl; [| exact Hs].
    destruct (_value s); exact Hs.
  - unfold get_enter; destruct (_value s); simpl.
    + apply Inv_increment, Hs.
    + destruct (or_set w) as [[v | e] w']; simpl; [apply Inv_increment |]; exact Hs.
  - unfold get_exit, Counter.bump_exit.
    destruct o as [a | e]; simpl;
      match goal with |- context [if ?b then _ else _] => destruct b end;
      simpl; auto using Inv_decrement.
Qed.

Lemma Kept_step (s : t T) (o : op T Exn World) :
  Inv s /\ Held s /\ Counter.Inv (_use_counter s) ->
  Inv (step s o) /\ Held (step s o) /\ Counter.Inv (_use_counter (step s o)).
Proof.
  intros (HI & HH & HC).
  auto using SlotInv_step, Held_step, UseCounter_step.
Qed.

Lemma Kept_trace (ops : list (op T Exn World)) :
  forall s : t T,
    Inv s /\ Held s /\ Counter.Inv (_use_counter s) ->
    Forall (fun s => Inv s /\ Held s /\ Counter.Inv (_use_counter s)) (trace ops s).
Proof.
  induction ops as [| o ops IH]; intros s Hs; simpl.
  - constructor; [exact Hs | constructor].
  - constructor; [exact Hs | apply IH, Kept_step, Hs].
Qed.

Lemma Kept_run (ops : list (op T Exn World)) :
  forall s : t T,
    Inv s /\ Held s /\ Counter.Inv (_use_counter s) ->
    Inv (run ops s) /\ Held (run ops s) /\ Counter.Inv (_use_counter (run ops s)).
Proof.
  induction ops as [| o ops IH]; intros s Hs; simpl; [exact Hs |].
  apply IH, Kept_step, Hs.
Qed.

Lemma with_use_counter_same (s : t T) : with_use_counter s (_use_counter s) = s.
Proof. destruct s; reflexivity. Qed.

(** What a [get] that reaches its [yield] has done to the slot. *)
Lemma get_enter_yields (s s1 : t T) (or_set : factory T Exn World) w w1 v :
  get_enter s or_set w = (Return v, s1, w1) ->
  _use_counter s1 = Counter.increment (_use_counter s)
  /\ _value s1 = Some v
  /\ _last_release s1 = _last_release s.
Proof.
  unfold get_enter; destruct (_value s) eqn:Hv.
  - intros [= <- <- <-]; simpl; rewrite Hv; repeat split.
  - destruct (or_set w) as [[v0 | e] w0]; [| discriminate].
    intros [= <- <- <-]; repeat split.
Qed.

(** X4. The usage counter of a slot: after construction and after every call
    the count is not negative, [unused()] is true exactly at count 0, and a
    slot whose count is above 0 holds a value, with its event set. *)
Theorem slot_in_use_holds_value
    (value : option (py T)) (now : Z) (ops : list (op T Exn World)) :
  Forall (fun s =>
            0 <= Counter._counter (_use_counter s)
            /\ (unused s = true <-> Counter._counter (_use_counter s) = 0)
            /\ (unused s = false ->
                _value_set s = true /\ exists v, _value s = Some v))
         (trace ops (__init__ value now)).
Proof.
  eapply Forall_impl; [| apply (Kept_trace ops), Kept_init].
  intros s (HI & HH & [Hge Hz]).
  split; [exact Hge |].
  split; [unfold unused, Counter.is_zero; apply Z.eqb_eq |].
  intros Hu; unfold unused, Counter.is_zero in Hu; apply Z.eqb_neq in Hu.
  destruct (_value s) as [v |] eqn:Hv.
  - split; [apply (Inv_present s v HI Hv) | exists v; reflexivity].
  - exfalso; apply (HH Hu); exact Hv.
Qed.

(** X5. The waiting coroutines: after construction and after every call,
    [until_unused()] returns without suspending exactly when [unused()] is
    true, and [until_set()] exactly when a value is stored. *)
Theorem waits_ready_iff
    (value : option (py T)) (now : Z) (ops : list (op T Exn World)) :
  Forall (fun s =>
            (until_unused s = Ready <-> unused s = true)
            /\ (until_set s = Ready <-> _value s <> None))
         (trace ops (__init__ value now)).
Proof.
  eapply Forall_impl; [| apply (Kept_trace ops), Kept_init].
  intros s (HI & _ & [_ Hz]).
  unfold until_unused, until_set, Counter.until_zero, wait, unused, Counter.is_zero.
  split.
  - rewrite Z.eqb_eq, <- Hz.
    destruct (Counter._zero (_use_counter s)); split;
      intros H; first [reflexivity | discriminate H].
  - destruct HI as [Hset Hval].
    destruct (_value_set s); split; intros H.
    + apply Hset; reflexivity.
    + reflexivity.
    + discriminate H.
    + apply Hval in H; discriminate H.
Qed.

(** X6. A whole [get] block that returns: on a slot that calls on a
    constructed slot have produced, when [get] yields and the body returns
    with the usage counter as it received it, the block returns the body's
    result, the usage counter is the one from before the block, and the
    timestamp is the clock reading at exit when the slot was unused before
    the block (so that [since_release()] read then is 0) and is left alone
    when another block is still open. *)
Theorem get_block_releases
    (value : option (py T)) (now0 : Z) (ops : list (op T Exn World))
    (or_set : factory T Exn World) {A : Type}
    (body : py T -> t T -> World -> outcome Exn A * t T * World)
    (v : py T) (a : A) (s1 s2 : t T) (w w1 w2 : World) (now : Z) :
  get_enter (run ops (__init__ value now0)) or_set w = (Return v, s1, w1) ->
  body v s1 w1 = (Return a, s2, w2) ->
  _use_counter s2 = _use_counter s1 ->
  get (run ops (__init__ value now0)) or_set body w now
  = (Return a,
     (if unused (run ops (__init__ value now0))
      then with_last_release
             (with_use_counter s2 (_use_counter (run ops (__init__ value now0))))
             now
      else with_use_counter s2 (_use_counter (run ops (__init__ value now0)))),
     w2)
  /\ (unused (run ops (__init__ value now0)) = true ->
      since_release
        (snd (fst (get (run ops (__init__ value now0)) or_set body w now))) now
      = 0).
Proof.
  remember (run ops (__init__ value now0)) as s eqn:Es.
  assert (HC : Counter.Inv (_use_counter s)).
  { subst s; apply Kept_run, Kept_init. }
  clear Es; intros He Hb Hc.
  destruct (get_enter_yields _ _ _ _ _ _ He) as (Hc1 & _ & _).
  assert (Hg : get s or_set body w now
               = (Return a,
                  (if unused s
                   then with_last_release (with_use_counter s2 (_use_counter s)) now
                   else with_use_counter s2 (_use_counter s)),
                  w2)).
  { unfold get; rewrite He, Hb.
    unfold get_exit, Counter.bump_exit.
    rewrite Hc, Hc1, (decrement_increment _ HC); simpl.
    fold (unused s); destruct (unused s); reflexivity. }
  split; [exact Hg |].
  intros Hu; rewrite Hg, Hu; unfold since_release; simpl; lia.
Qed.

(** X7. A whole [get] block whose body raises: on a slot that calls on a
    constructed slot have produced, when [get] yields and the body raises
    with the usage count no lower than it received it (blocks it opened
    itself may have stayed open the same way), the exception leaves the
    block and the slot is exactly as the body left it: the count is at least
    one above its value before the block, the timestamp is not written,
    [unused()] is false and [clear()] is refused.  When the body hands the
    usage counter back as it received it, the count is exactly one above. *)
Theorem get_raising_body_keeps_slot_in_use
    (value : option (py T)) (now0 : Z) (ops : list (op T Exn World))
    (or_set : factory T Exn World) {A : Type}
    (body : py T -> t T -> World -> outcome Exn A * t T * World)
    (v : py T) (e : Exn) (s1 s2 : t T) (w w1 w2 : World) (now : Z) :
  get_enter (run ops (__init__ value now0)) or_set w = (Return v, s1, w1) ->
  body v s1 w1 = (Raise e, s2, w2) ->
  Counter._counter (_use_counter s1) <= Counter._counter (_use_counter s2) ->
  get (run ops (__init__ value now0)) or_set body w now = (Raise e, s2, w2)
  /\ Counter._counter (_use_counter (run ops (__init__ value now0))) + 1
     <= Counter._counter (_use_counter s2)
  /\ (_use_counter s2 = _use_counter s1 ->
      Counter._counter (_use_counter s2)
      = Counter._counter (_use_counter (run ops (__init__ value now0))) + 1)
  /\ unused s2 = false
  /\ clear s2 = (false, s2).
Proof.
  remember (run ops (__init__ value now0)) as s eqn:Es.
  assert (HC : Counter.Inv (_use_counter s)).
  { subst s; apply Kept_run, Kept_init. }
  clear Es; intros He Hb Hc.
  destruct (get_enter_yields _ _ _ _ _ _ He) as (Hc1 & _ & _).
  assert (Hn1 : Counter._counter (_use_counter s1)
                = Counter._counter (_use_counter s) + 1).
  { rewrite Hc1; reflexivity. }
  assert (Hu : unused s2 = false).
  { unfold unused, Counter.is_zero; apply Z.eqb_neq.
    destruct HC as [Hge _]; lia. }
  split.
  - unfold get; rewrite He, Hb.
    unfold get_exit, Counter.bump_exit.
    rewrite with_use_counter_same.
    fold (unused s2); rewrite Hu; reflexivity.
  - split; [lia |].
    split; [intros Heq; rewrite Heq; exact Hn1 |].
    split; [exact Hu |].
    unfold clear; rewrite Hu; reflexivity.
Qed.

(** X8. Who writes the timestamp: of all calls only the exit from a [get] block
    that leaves the slot unused writes [_last_release], and it writes the
    clock reading at that exit; so over calls none of which leaves a block
    the timestamp stays what it was. *)
Theorem last_release_written_only_by_last_exit (s : t T) :
  (forall o : op T Exn World,
     _last_release (step s o)
     = match o with
       | GetExit _ now => if unused (step s o) then now else _last_release s
       | _ => _last_release s
       end)
  /\ (forall ops : list (op T Exn World),
        forallb (fun o => negb (is_get_exit o)) ops = true ->
        _last_release (run ops s) = _last_release s).
Proof.
  assert (Hstep : forall (s : t T) (o : op T Exn World),
             _last_release (step s o)
             = match o with
               | GetExit _ now => if unused (step s o) then now else _last_release s
               | _ => _last_release s
               end).
  { clear s; intros s o; destruct o as [value | | or_set w | o now]; simpl.
    - reflexivity.
    - unfold clear; destruct (unused s); [| reflexivity].
      destruct (_value s); reflexivity.
    - unfold get_enter; destruct (_value s); [reflexivity |].
      destruct (or_set w) as [[v | e] w']; reflexivity.
    - unfold get_exit, Counter.bump_exit, unused.
      destruct o as [a | e]; simpl;
        match goal with |- context [if ?b then _ else _] => destruct b eqn:Hb end;
        simpl; rewrite ?Hb; reflexivity. }
  split; [apply Hstep |].
  intros ops; revert s.
  induction ops as [| o ops IH]; intros s Hops; [reflexivity |].
  simpl in Hops; apply andb_true_iff in Hops; destruct Hops as [Ho Hops].
  change (run (o :: ops) s) with (run ops (step s o)).
  rewrite (IH _ Hops), Hstep.
  destruct o; [reflexivity | reflexivity | reflexivity | discriminate Ho].
Qed.

(** X9. [set] then [get]: whatever the slot was, after [set(v)] a [get] yields
    [v] and does not run the factory; and of two [set]s in a row only the
    second shows. *)
Theorem set_then_get_yields_it
    (s : t T) (v : py T) (or_set : factory T Exn World) (w : World) :
  get_enter (set s v) or_set w
  = (Return v,
     with_use_counter (set s v) (Counter.increment (_use_counter s)), w)
  /\ (forall v0, set (set s v0) v = set s v).
Proof.
  split; [reflexivity | intros v0; reflexivity].
Qed.

(** X10. [clear] then [get]: once [clear()] has succeeded, the next [get] runs
    the factory again, once, and yields and stores what it returns. *)
Theorem get_after_clear_runs_factory
    (s : t T) (or_set : factory T Exn World) (w : World) :
  unused s = true ->
  fst (clear s) = true
  /\ snd (get_enter (snd (clear s)) or_set w) = snd (or_set w)
  /\ (forall v w', or_set w = (Return v, w') ->
        fst (fst (get_enter (snd (clear s)) or_set w)) = Return v
        /\ _value (snd (fst (get_enter (snd (clear s)) or_set w))) = Some v
        /\ _value_set (snd (fst (get_enter (snd (clear s)) or_set w))) = true).
Proof.
  intros Hu.
  assert (Hc : fst (clear s) = true /\ _value (snd (clear s)) = None).
  { unfold clear; rewrite Hu; simpl.
    destruct (_value s) eqn:Hv; simpl; [split; reflexivity | split; [reflexivity | exact Hv]]. }
  destruct Hc as [Hc Hv].
  split; [exact Hc |].
  unfold get_enter; rewrite Hv.
  destruct (or_set w) as [[v0 | e] w0]; simpl.
  - split; [reflexivity |].
    intros v w' [= -> ->]; repeat split.
  - split; [reflexivity |].
    intros v w' H; discriminate H.
Qed.

(** X11. What can change the stored value: a slot holding [v] still holds [v]
    after any call, except that [set(v')] makes it hold [v'] and [clear()]
    on an unused slot makes it hold nothing. *)
Theorem value_changes_only_by_set_or_clear
    (s : t T) (v : py T) (o : op T Exn World) :
  _value s = Some v ->
  _value (step s o)
  = match o with
    | Set_ v' => Some v'
    | Clear => if unused s then None else Some v
    | _ => Some v
    end.
Proof.
  intros Hv; destruct o as [value | | or_set w | o now]; simpl.
  - reflexivity.
  - unfold clear; destruct (unused s); simpl; [rewrite Hv; reflexivity | exact Hv].
  - unfold get_enter; rewrite Hv; simpl; exact Hv.
  - unfold get_exit, Counter.bump_exit.
    destruct o as [a | e]; simpl;
      match goal with |- context [if ?b then _ else _] => destruct b end;
      simpl; exact Hv.
Qed.

(** X12. Construction with a value: [DelayedClear(x)] for [x] other than [None]
    is the empty slot on which [set(x)] was called; it is unused, and its
    first [get] yields [x] without running the factory. *)
Theorem init_with_value_is_set
    (x : T) (now : Z) (or_set : factory T Exn World) (w : World) :
  __init__ (Some (Py x)) now = set (__init__ None now) (Py x)
  /\ _value_set (@__init__ T (Some (Py x)) now) = true
  /\ unused (@__init__ T (Some (Py x)) now) = true
  /\ since_release (@__init__ T (Some (Py x)) now) now = 0
  /\ fst (fst (get_enter (__init__ (Some (Py x)) now) or_set w)) = Return (Py x)
  /\ snd (get_enter (__init__ (Some (Py x)) now) or_set w) = w.
Proof.
  unfold since_release; simpl; repeat split; lia.
Qed.

(** X13. A [get] while the slot is in use: on a slot that calls on a constructed
    slot have produced and whose count is above 0, [get] never runs the
    factory; it yields the value stored and only increments the counter. *)
Theorem get_while_in_use_skips_factory
    (value : option (py T)) (now : Z) (ops : list (op T Exn World)) :
  0 < Counter._counter (_use_counter (run ops (__init__ value now))) ->
  exists v,
    _value (run ops (__init__ value now)) = Some v
    /\ forall (or_set : factory T Exn World) (w : World),
         get_enter (run ops (__init__ value now)) or_set w
         = (Return v,
            with_use_counter (run ops (__init__ value now))
              (Counter.increment (_use_counter (run ops (__init__ value now)))),
            w).
Proof.
  remember (run ops (__init__ value now)) as s eqn:Es.
  assert (HH : Held s).
  { subst s; apply Kept_run, Kept_init. }
  clear Es; intros Hpos.
  destruct (_value s) as [v |] eqn:Hv.
  - exists v; split; [reflexivity |].
    intros or_set w; unfold get_enter; rewrite Hv; reflexivity.
  - exfalso; apply HH; [lia | exact Hv].
Qed.

End SlotMore.

(** [with slot.get(returns_X) as v: return v] on a fresh slot, left at clock
    reading 7. *)
Lemma get_block_releases_witness :
  DelayedClear.get_enter Sample.fresh Sample.returns_X 0%nat
  = (Return (Py "X"%string), Sample.in_use, 1%nat)
  /\ DelayedClear.unused Sample.fresh = true
  /\ DelayedClear.since_release
       (snd (fst (DelayedClear.get Sample.fresh Sample.returns_X
                    (fun v s w => (@Return string _ v, s, w)) 0%nat 7))) 7
     = 0.
Proof.
  split; [reflexivity |].
  split; [reflexivity |].
  exact (proj2 (get_block_releases (T:=string) (Exn:=string) (World:=nat) None 0 []
                  Sample.returns_X
                  (fun v s w => (Return v, s, w))
                  (Py "X"%string) (Py "X"%string) Sample.in_use Sample.in_use
                  0%nat 1%nat 1%nat 7 eq_refl eq_refl eq_refl)
           eq_refl).
Defined.

(** [with slot.get(returns_X): raise KeyError] on a fresh slot, and the same
    block around a second one that raises: the count is left at 1 and at 2. *)
Lemma get_raising_body_keeps_slot_in_use_witness :
  DelayedClear.get_enter Sample.fresh Sample.returns_X 0%nat
  = (Return (Py "X"%string), Sample.in_use, 1%nat)
  /\ DelayedClear.get Sample.fresh Sample.returns_X
       (fun _ s w => (@Raise string unit "KeyError"%string, s, w)) 0%nat 7
     = (Raise "KeyError"%string, Sample.in_use, 1%nat)
  /\ DelayedClear.clear Sample.in_use = (false, Sample.in_use)
  /\ Counter._counter
       (DelayedClear._use_counter
          (snd (fst (DelayedClear.get Sample.fresh Sample.returns_X
                       (fun _ s w =>
                          DelayedClear.get s Sample.returns_X
                            (fun _ s w => (@Raise string unit "KeyError"%string, s, w))
                            w 5)
                       0%nat 7))))
     = 2.
Proof.
  split; [reflexivity |].
  split.
  - exact (proj1 (get_raising_body_keeps_slot_in_use (T:=string) (Exn:=string)
                    (World:=nat) None 0 []
                    Sample.returns_X (A:=unit)
                    (fun _ s w => (Raise "KeyError"%string, s, w))
                    (Py "X"%string) "KeyError"%string Sample.in_use Sample.in_use
                    0%nat 1%nat 1%nat 7 eq_refl eq_refl (Z.le_refl _))).
  - split.
    + exact (proj2 (proj2 (proj2 (proj2
               (get_raising_body_keeps_slot_in_use (T:=string) (Exn:=string)
                  (World:=nat) None 0 []
                  Sample.returns_X (A:=unit)
                  (fun _ s w => (Raise "KeyError"%string, s, w))
                  (Py "X"%string) "KeyError"%string Sample.in_use Sample.in_use
                  0%nat 1%nat 1%nat 7 eq_refl eq_refl (Z.le_refl _)))))).
    + rewrite (proj1 (get_raising_body_keeps_slot_in_use (T:=string) (Exn:=string)
                        (World:=nat) None 0 []
                        Sample.returns_X (A:=unit)
                        (fun _ s w =>
                           DelayedClear.get s Sample.returns_X
                             (fun _ s w => (Raise "KeyError"%string, s, w)) w 5)
                        (Py "X"%string) "KeyError"%string Sample.in_use
                        (DelayedClear.step Sample.in_use
                           (DelayedClear.GetEnter Sample.returns_X 1%nat))
                        0%nat 1%nat 1%nat 7 eq_refl eq_refl
                        (Zle_bool_imp_le 1 2 eq_refl))).
      reflexivity.
Defined.

(** A slot constructed at clock reading 0, then set, entered and cleared
    (in vain): the timestamp is still 0. *)
Lemma last_release_written_only_by_last_exit_witness :
  DelayedClear._last_release
    (DelayedClear.run
       [DelayedClear.Set_ (Py "Y"%string);
        DelayedClear.GetEnter Sample.returns_X 0%nat;
        DelayedClear.Clear] Sample.fresh)
  = 0.
Proof.
  exact (proj2 (last_release_written_only_by_last_exit (T:=string) (Exn:=string) (World:=nat) Sample.fresh)
           [DelayedClear.Set_ (Py "Y"%string);
            DelayedClear.GetEnter Sample.returns_X 0%nat;
            DelayedClear.Clear] eq_refl).
Defined.

(** The slot used, released and then cleared and entered again: the factory
    runs a second time. *)
Lemma get_after_clear_runs_factory_witness :
  DelayedClear.unused (DelayedClear.run Sample.released Sample.fresh) = true
  /\ snd (DelayedClear.get_enter
            (snd (DelayedClear.clear (DelayedClear.run Sample.released Sample.fresh)))
            Sample.returns_X 1%nat)
     = 2%nat.
Proof.
  split; [reflexivity |].
  exact (proj1 (proj2 (get_after_clear_runs_factory
                         (DelayedClear.run Sample.released Sample.fresh)
                         Sample.returns_X 1%nat eq_refl))).
Defined.

(** On the slot in use holding ["X"]: a refused [clear()] keeps ["X"], and
    [set("Y")] replaces it. *)
Lemma value_changes_only_by_set_or_clear_witness :
  DelayedClear._value Sample.in_use = Some (Py "X"%string)
  /\ DelayedClear._value
       (DelayedClear.step Sample.in_use (@DelayedClear.Clear string string nat))
     = Some (Py "X"%string)
  /\ DelayedClear._value
       (DelayedClear.step Sample.in_use
          (@DelayedClear.Set_ string string nat (Py "Y"%string)))
     = Some (Py "Y"%string).
Proof.
  split; [reflexivity |].
  split.
  - exact (value_changes_only_by_set_or_clear Sample.in_use (Py "X"%string)
             (@DelayedClear.Clear string string nat) eq_refl).
  - exact (value_changes_only_by_set_or_clear Sample.in_use (Py "X"%string)
             (@DelayedClear.Set_ string string nat (Py "Y"%string)) eq_refl).
Defined.

(** A second [get] on the slot in use, with a factory that would raise: the
    factory is not run (the call count stays 1) and ["X"] is yielded. *)
Lemma get_while_in_use_skips_factory_witness :
  0 < Counter._counter (DelayedClear._use_counter Sample.in_use)
  /\ exists v,
       DelayedClear._value Sample.in_use = Some v
       /\ DelayedClear.get_enter Sample.in_use Sample.raises_ValueError 1%nat
          = (Return v,
             DelayedClear.with_use_counter Sample.in_use
               (Counter.increment (DelayedClear._use_counter Sample.in_use)),
             1%nat).
Proof.
  split; [reflexivity |].
  destruct (get_while_in_use_skips_factory (T:=string) (Exn:=string) (World:=nat) None 0
              [DelayedClear.GetEnter Sample.returns_X 0%nat] eq_refl)
    as [v [Hv Hget]].
  exists v; split; [exact Hv | exact (Hget Sample.raises_ValueError 1%nat)].
Defined.
